(** * Superstore sales dashboard (project21.py): model and properties

    The script loads a CSV of sales, filters it by two sidebar multiselects,
    and renders three metrics, two charts and a table.  The model below
    follows it top to bottom.

    Modelling choices.
    - A frame is a list of rows in index order; a row carries its index label
      and the columns the script touches, as [pd.read_csv] returns them.  A
      cell of a key column (Region, Category, Sub-Category) is a text, a
      number (pandas reads a column of digits as numbers) or missing (an
      empty or NA cell, pandas' NaN); a cell of Sales or Profit is a finite
      number, kept as the rational value of the 64-bit integer or float
      that pandas holds.
    - The frame has the six columns the script reads, and every amount cell
      is present and finite.  A file with an empty amount cell, which pandas
      skips in its sums, is outside the model; so is a file without one of
      the columns or with a non-numeric or infinite amount, on which the
      script ends in an uncaught exception after loading.
    - What pandas and numpy compute on amounts ([Series.sum], [Series.mean],
      the sums of [groupby], [round]) depends on the column's type and on the
      rounding of every floating-point step.  These five results are
      parameters of the model ([Numerics]); a statement that needs a sum to
      be the exact one says so in a hypothesis.  Python's [int] is modelled
      as it is: exact truncation.
    - The two library calls that touch the outside world, [pd.read_csv] and
      [pd.to_datetime], are parameters of the section that models the script.
    - Streamlit output is a list of page elements in emission order, and
      [st.stop()] ends the run.  [st.cache_data] replays the loader's result
      and its error message on later runs, so one run is modelled without
      the cache. *)

From Stdlib Require Import QArith Qround Lqa Ascii.
From stdpp Require Import base list strings sorting.

Close Scope Q_scope.
Open Scope string_scope.

(** ** Data model *)

(** A parsed [Order Date]. *)
Record Timestamp := { year : Z; month : Z; day : Z }.

(** A cell of a key column. *)
Inductive Key :=
| Text (s : string)
| Number (z : Z)
| Missing.

#[global] Instance Key_eq_dec : EqDecision Key.
Proof. solve_decision. Defined.

(** One row of the frame; [D] is the type of the [Order Date] cell: the CSV
    text before [pd.to_datetime], an optional timestamp after it ([None] is
    pandas' NaT). *)
Record Row (D : Type) := {
  idx : nat;
  Region : Key;
  Category : Key;
  Sub_Category : Key;
  Order_Date : D;
  Sales : Q;
  Profit : Q
}.
Arguments idx {D} _.
Arguments Region {D} _.
Arguments Category {D} _.
Arguments Sub_Category {D} _.
Arguments Order_Date {D} _.
Arguments Sales {D} _.
Arguments Profit {D} _.

(** The cells of one line of the CSV file as [read_csv] returns them, before
    the line gets its index label. *)
Record CsvLine := {
  csv_Region : Key;
  csv_Category : Key;
  csv_Sub_Category : Key;
  csv_Order_Date : string;
  csv_Sales : Q;
  csv_Profit : Q
}.

(** Frames before and after the date conversion. *)
Abbreviation RawFrame := (list (Row string)).
Abbreviation DataFrame := (list (Row (option Timestamp))).

(** ** Series helpers *)

(** [Series.unique()]: distinct values in order of first appearance; a
    missing value counts as one value. *)
Fixpoint unique_from (seen : list Key) (l : list Key) : list Key :=
  match l with
  | [] => []
  | x :: l' =>
      if decide (x ∈ seen) then unique_from seen l'
      else x :: unique_from (x :: seen) l'
  end.

Definition unique (l : list Key) : list Key := unique_from [] l.

(** ** Filter engine *)

(** [df.query("Region == @region & Category == @category")].  In a query
    string pandas reads [&] as [and], and [==] against a list as membership
    ([isin]); a missing cell is a member of a list that holds the missing
    value. *)
Definition query (df : DataFrame) (region category : list Key) : DataFrame :=
  filter (λ r, Region r ∈ region ∧ Category r ∈ category) df.

(** The multiselect defaults: [df['Region'].unique()], [df['Category'].unique()]. *)
Definition region_options (df : DataFrame) : list Key := unique (Region <$> df).
Definition category_options (df : DataFrame) : list Key := unique (Category <$> df).

(** ** Data loader *)

(** What the body of [load_data]'s [try] can do: [pd.read_csv] raises
    [FileNotFoundError]; a library call raises another exception, of message
    [e] (an unreadable or empty file, a file without an Order Date column,
    ...); or the file is read, with these lines. *)
Inductive CsvResult :=
| FileNotFoundError
| OtherException (e : string)
| Parsed (lines : list CsvLine).

(** [read_csv] labels the lines with a range index 0, 1, 2, ... *)
Definition row_of_line (i : nat) (l : CsvLine) : Row string :=
  {| idx := i; Region := csv_Region l; Category := csv_Category l;
     Sub_Category := csv_Sub_Category l; Order_Date := csv_Order_Date l;
     Sales := csv_Sales l; Profit := csv_Profit l |}.

Definition frame_of_lines (lines : list CsvLine) : RawFrame :=
  imap row_of_line lines.

(** [df['Order Date'] = pd.to_datetime(df['Order Date'], format='%m/%d/%Y',
    errors='coerce')]: the cell is replaced by its parse, NaT where the text
    does not parse; the other cells are kept. *)
Definition set_Order_Date {D E} (r : Row D) (d : E) : Row E :=
  {| idx := idx r; Region := Region r; Category := Category r;
     Sub_Category := Sub_Category r; Order_Date := d;
     Sales := Sales r; Profit := Profit r |}.

Definition convert_Order_Date (to_datetime : string → option Timestamp)
    (df : RawFrame) : DataFrame :=
  (λ r, set_Order_Date r (to_datetime (Order_Date r))) <$> df.

(** [df.dropna(subset=['Order Date'], inplace=True)]. *)
Definition dropna (df : DataFrame) : DataFrame :=
  filter (λ r, is_Some (Order_Date r)) df.

(** ** Metrics calculator *)

(** What the numeric library calls of the script return in one run, each as
    a function of the cells it is given, in frame order.  The values depend
    on the type pandas gave the column (64-bit integers, which wrap around,
    or binary floating point) and on the order and rounding of the
    additions; results are taken to be finite. *)
Record Numerics := {
  (** [df_selection['Sales'].sum()] *)
  Sales_sum : list Q → Q;
  (** [df_selection['Profit'].sum()] *)
  Profit_sum : list Q → Q;
  (** [df_selection['Sales'].mean()] *)
  Sales_mean : list Q → Q;
  (** the sum of one group in [groupby(...)['Sales'].sum()] *)
  group_sum : list Q → Q;
  (** [round(x, 2)] *)
  round_2 : Q → Q
}.

(** Python's [int(x)] on a finite number: the fractional part is cut off,
    towards zero. *)
Definition int_ (x : Q) : Z := Z.quot (Qnum x) (Z.pos (Qden x)).

Definition total_sales (np : Numerics) (df_selection : DataFrame) : Z :=
  int_ (Sales_sum np (Sales <$> df_selection)).
Definition total_profit (np : Numerics) (df_selection : DataFrame) : Z :=
  int_ (Profit_sum np (Profit <$> df_selection)).
Definition average_sale (np : Numerics) (df_selection : DataFrame) : Q :=
  round_2 np (Sales_mean np (Sales <$> df_selection)).

(** ** Chart builders *)

(** A series indexed by labels, as [groupby(...)[...].sum()] returns. *)
Abbreviation Series := (list (Key * Q)).

(** A stable sort by insertion: equal elements keep their order. *)
Section sort_by.
Context {A : Type} (R : relation A) `{!RelDecision R}.

Fixpoint insert_by (x : A) (l : list A) : list A :=
  match l with
  | [] => [x]
  | y :: l' => if decide (R x y) then x :: y :: l' else y :: insert_by x l'
  end.

Definition sort_by (l : list A) : list A := foldr insert_by [] l.

End sort_by.

(** The order in which [groupby] sorts its keys: numbers by value, texts by
    code point; a column holds one kind of key. *)
Definition key_leb (a b : Key) : bool :=
  match a, b with
  | Number x, Number y => (x <=? y)%Z
  | Number _, _ => true
  | Text _, Number _ => false
  | Text s, Text t => String.leb s t
  | Text _, Missing => true
  | Missing, Missing => true
  | Missing, _ => false
  end.

Definition key_le (a b : Key) : Prop := key_leb a b.
#[global] Instance key_le_dec : RelDecision key_le := λ a b, Is_true_dec _.

Definition value_le (a b : Key * Q) : Prop := (a.2 <= b.2)%Q.
#[global] Instance value_le_dec : RelDecision value_le.
Proof.
  intros a b. unfold value_le.
  destruct (Qlt_le_dec (b.2) (a.2)) as [H|H]; [right|left].
  - apply Qlt_not_le, H.
  - exact H.
Defined.

(** The group labels of [df.groupby(by=[key])]: the distinct keys of the
    frame, the missing one left out, in sorted order. *)
Definition group_keys (key : Row (option Timestamp) → Key)
    (df : DataFrame) : list Key :=
  sort_by key_le (filter (λ k, k ≠ Missing) (unique (key <$> df))).

(** [df.groupby(by=[key])['Sales'].sum()]: one entry per group, each with
    the sum of [Sales] over the rows of that key, taken in frame order. *)
Definition groupby_sum_Sales (np : Numerics)
    (key : Row (option Timestamp) → Key) (df : DataFrame) : Series :=
  (λ k, (k, group_sum np (Sales <$> filter (λ r, key r = k) df))) <$>
  group_keys key df.

(** [Series.sort_values(ascending=True)].  pandas' default sort leaves the
    order among equal values open; here they keep their order, and no
    property below depends on it. *)
Definition sort_values (s : Series) : Series := sort_by value_le s.

Definition sales_by_subcategory (np : Numerics) (df_selection : DataFrame)
    : Series :=
  sort_values (groupby_sum_Sales np Sub_Category df_selection).

Definition sales_by_region (np : Numerics) (df_selection : DataFrame)
    : Series :=
  groupby_sum_Sales np Region df_selection.

(** The two figures, with the arguments that carry data. *)
Inductive Figure :=
| Bar (title : string) (x : list Q) (y : list Key)
| Pie (title : string) (values : list Q) (names : list Key) (pull : list Q).

Definition fig_sales_by_subcategory (np : Numerics)
    (df_selection : DataFrame) : Figure :=
  let s := sales_by_subcategory np df_selection in
  Bar "<b>Sales by Product Sub-Category</b>" (s.*2) (s.*1).

Definition fig_sales_by_region (np : Numerics)
    (df_selection : DataFrame) : Figure :=
  let s := sales_by_region np df_selection in
  Pie "<b>Sales by Region</b>" (s.*2) (s.*1) (replicate (length s) (5 # 100)%Q).
(** ** Presentation layer *)

(** What a metric card shows: [f"${value:,.Nf}"] keeps the amount and the
    number of decimals [N]. *)
Record Money := { amount : Q; decimals : nat }.

(** The page elements the script emits. *)
Inductive Element :=
| PageConfig (page_title page_icon layout initial_sidebar_state : string)
| StError (body : string)
| StWarning (body : string)
| StMarkdown (body : string)
| SidebarHeader (body : string)
| SidebarMultiselect (label : string) (options preselected : list Key)
| StTitle (body : string)
| StMetric (label : string) (value : Money)
| StHeader (body : string)
| PlotlyChart (fig : Figure)
| ExpanderDataframe (label : string) (data : DataFrame).

(** A run of script code either finishes with a value or is cut short by
    [st.stop()]; in both cases it has emitted some elements. *)
Inductive Outcome (A : Type) :=
| Done (a : A)
| Stopped.
Arguments Done {A} _.
Arguments Stopped {A}.

Definition Script (A : Type) : Type := list Element * Outcome A.

Definition ret {A} (a : A) : Script A := ([], Done a).

Definition bind {A B} (m : Script A) (k : A → Script B) : Script B :=
  match m with
  | (out, Done a) => let '(out', r) := k a in ((out ++ out')%list, r)
  | (out, Stopped) => (out, Stopped)
  end.

Notation "'do' x <- m ; k" := (bind m (λ x, k))
  (at level 10, x name, m at level 100, k at level 200).
Notation "m ;;; k" := (bind m (λ _, k))
  (at level 100, k at level 200, right associativity).

Definition emit (e : Element) : Script unit := ([e], Done tt).
Definition st_stop {A} : Script A := ([], Stopped).

(** The user's side of the two widgets: [None] while a widget has not been
    touched (it then returns its default), otherwise the options picked. *)
Record Widgets := {
  picked_region : option (list Key);
  picked_category : option (list Key)
}.

(** [st.sidebar.multiselect(label, options=..., default=...)]. *)
Definition multiselect (label : string) (options preselected : list Key)
    (picked : option (list Key)) : Script (list Key) :=
  emit (SidebarMultiselect label options preselected) ;;;
  ret (default preselected picked).

Definition css : string := "
<style>
    .main {
        background-color: #0E1117; /* Dark background for the main content area */
    }
    .st-sidebar {
        background-color: #1E1E1E; /* Darker background for the sidebar */
    }
    h1, h2 {
        color: #1DB954; /* Green accent color for titles */
    }
    .stMetric {
        background-color: #1E1E1E; /* Dark background for metric cards */
        border-radius: 10px;
        padding: 15px;
        border: 1px solid #222;
    }
</style>
".

Definition data_path : string := "superstore_sales.csv".

Definition empty_warning : string :=
  "No data available for the selected filters. Please adjust your selection.".

Section Dashboard.

(** The file system seen through [pd.read_csv], [pd.to_datetime] with
    [format='%m/%d/%Y', errors='coerce'] on one cell ([None] is NaT), and the
    numeric results of the run. *)
Variable read_csv : string → CsvResult.
Variable to_datetime : string → option Timestamp.
Variable np : Numerics.

(** [load_data(path)]: the frame, or [None] after an [st.error]. *)
Definition load_data (path : string) : Script (option DataFrame) :=
  match read_csv path with
  | Parsed lines =>
      let df := frame_of_lines lines in
      let df := convert_Order_Date to_datetime df in
      let df := dropna df in
      ret (Some df)
  | FileNotFoundError =>
      emit (StError ("Error: The file '" ++ path ++
        "' was not found. Please make sure it is in the same folder as the script.")) ;;;
      ret None
  | OtherException e =>
      emit (StError ("An error occurred while loading the data: " ++ e)) ;;;
      ret None
  end.

(** The key metrics row. *)
Definition key_metrics (df_selection : DataFrame) : Script unit :=
  emit (StMetric "Total Sales"
          {| amount := inject_Z (total_sales np df_selection); decimals := 0 |}) ;;;
  emit (StMetric "Total Profit"
          {| amount := inject_Z (total_profit np df_selection); decimals := 0 |}) ;;;
  emit (StMetric "Average Sale Value"
          {| amount := average_sale np df_selection; decimals := 2 |}).

(** The main page, rendered from a non-empty filtered view. *)
Definition main_page (df_selection : DataFrame) : Script unit :=
  emit (StTitle "🛒 Superstore Sales Dashboard") ;;;
  emit (StMarkdown "##") ;;;
  key_metrics df_selection ;;;
  emit (StMarkdown "---") ;;;
  emit (StHeader "Charts & Analysis") ;;;
  emit (PlotlyChart (fig_sales_by_subcategory np df_selection)) ;;;
  emit (PlotlyChart (fig_sales_by_region np df_selection)) ;;;
  emit (ExpanderDataframe "View Raw Data Table" df_selection).

(** The sidebar filters and the filtered view. *)
Definition df_selection_of (df : DataFrame) (w : Widgets) : Script DataFrame :=
  emit (SidebarHeader "Dashboard Filters") ;;;
  do region <- multiselect "Select Region:"
                 (region_options df) (region_options df) (picked_region w) ;
  do category <- multiselect "Select Category:"
                   (category_options df) (category_options df) (picked_category w) ;
  ret (query df region category).

(** One run of the script, top to bottom. *)
Definition app (w : Widgets) : Script unit :=
  emit (PageConfig "Superstore Sales Dashboard" "🛒" "wide" "expanded") ;;;
  do df <- load_data data_path ;
  match df with
  | None => st_stop
  | Some df =>
      emit (StMarkdown css) ;;;
      do df_selection <- df_selection_of df w ;
      match df_selection with
      | [] => emit (StWarning empty_warning) ;;; st_stop
      | _ :: _ => main_page df_selection
      end
  end.

End Dashboard.

(** ** Exact arithmetic

    The mathematical sum of a list of amounts, and the instance of
    [Numerics] in which nothing is rounded and nothing wraps around.  pandas
    returns these values when every step is exact, as for the whole and
    binary-fraction amounts of the examples below; in general it does not
    (0.3 + 0.35 + 0.35 is not 1 in binary floating point). *)

Definition sum (s : list Q) : Q := foldr Qplus 0%Q s.

(** [f] returns the exact sum on [s]. *)
Definition computed_exactly (f : list Q → Q) (s : list Q) : Prop :=
  (f s == sum s)%Q.

Definition mean (s : list Q) : Q := (sum s / inject_Z (Z.of_nat (length s)))%Q.

(** Round to the nearest integer, ties to the even one. *)
Definition rint (x : Q) : Z :=
  let f := Qfloor x in
  match (x - inject_Z f ?= 1 # 2)%Q with
  | Lt => f
  | Gt => (f + 1)%Z
  | Eq => if Z.even f then f else (f + 1)%Z
  end.

(** Scale by [10^ndigits], round to the nearest integer, scale back. *)
Definition round_ (x : Q) (ndigits : nat) : Q :=
  (inject_Z (rint (x * inject_Z (10 ^ Z.of_nat ndigits))) /
   inject_Z (10 ^ Z.of_nat ndigits))%Q.

Definition exact_arithmetic : Numerics :=
  {| Sales_sum := sum; Profit_sum := sum; Sales_mean := mean;
     group_sum := sum; round_2 := λ x, round_ x 2 |}.

(** ** A reading of the date format, for running the script on examples

    [strptime_mdY] reads [%m/%d/%Y]: a month of one or two digits, a day of
    one or two digits that exists in that month, a year of four digits
    between 1678 and 2261 (the whole years a pandas nanosecond timestamp
    holds), separated by slashes.  It stands for [to_datetime] in the
    examples; the properties below are proved for every [to_datetime]. *)

Definition digit (c : ascii) : option Z :=
  let n := Z.of_nat (nat_of_ascii c) in
  if decide (48 ≤ n ≤ 57)%Z then Some (n - 48)%Z else None.

Fixpoint digits (acc : Z) (s : string) : option Z :=
  match s with
  | EmptyString => Some acc
  | String c s' => d ← digit c; digits (10 * acc + d) s'
  end.

Definition number (lo hi : nat) (s : string) : option Z :=
  if decide (lo ≤ String.length s ≤ hi)%nat then digits 0 s else None.

Fixpoint fields (s : string) : list string :=
  match s with
  | EmptyString => [EmptyString]
  | String c s' =>
      if Ascii.eqb c "/" then EmptyString :: fields s'
      else match fields s' with
           | f :: fs => String c f :: fs
           | [] => [String c EmptyString]
           end
  end.

Definition leap (y : Z) : bool :=
  ((y mod 4 =? 0) && negb (y mod 100 =? 0) || (y mod 400 =? 0))%Z.

Definition days_in_month (y m : Z) : Z :=
  if (m =? 2)%Z then (if leap y then 29 else 28)
  else if ((m =? 4) || (m =? 6) || (m =? 9) || (m =? 11))%Z then 30
  else 31.

Definition strptime_mdY (s : string) : option Timestamp :=
  match fields s with
  | [m; d; y] =>
      m ← number 1 2 m; d ← number 1 2 d; y ← number 4 4 y;
      if decide (1678 ≤ y ≤ 2261 ∧ 1 ≤ m ≤ 12 ∧ 1 ≤ d ≤ days_in_month y m)%Z
      then Some {| year := y; month := m; day := d |}
      else None
  | _ => None
  end.

(** ** Examples: the scenarios of the specification *)

Definition chairs : CsvLine :=
  {| csv_Region := Text "East"; csv_Category := Text "Furniture";
     csv_Sub_Category := Text "Chairs"; csv_Order_Date := "01/01/2020";
     csv_Sales := 100; csv_Profit := 10 |}.

Definition paper : CsvLine :=
  {| csv_Region := Text "West"; csv_Category := Text "Office";
     csv_Sub_Category := Text "Paper"; csv_Order_Date := "02/02/2020";
     csv_Sales := 50; csv_Profit := 5 |}.

(** A line whose date is not in the format. *)
Definition undated : CsvLine :=
  {| csv_Region := Text "West"; csv_Category := Text "Office";
     csv_Sub_Category := Text "Paper"; csv_Order_Date := "2020-02-30";
     csv_Sales := 7; csv_Profit := 1 |}.

(** A file system that holds one file, at the script's path. *)
Definition only_file (lines : list CsvLine) (path : string) : CsvResult :=
  if decide (path = data_path) then Parsed lines else FileNotFoundError.

Definition untouched : Widgets :=
  {| picked_region := None; picked_category := None |}.

Definition only_east : Widgets :=
  {| picked_region := Some [Text "East"]; picked_category := None |}.

Definition no_region : Widgets :=
  {| picked_region := Some []; picked_category := None |}.

Definition row_chairs : Row (option Timestamp) :=
  {| idx := 0; Region := Text "East"; Category := Text "Furniture";
     Sub_Category := Text "Chairs";
     Order_Date := Some {| year := 2020; month := 1; day := 1 |};
     Sales := 100; Profit := 10 |}.

Definition row_paper : Row (option Timestamp) :=
  {| idx := 1; Region := Text "West"; Category := Text "Office";
     Sub_Category := Text "Paper";
     Order_Date := Some {| year := 2020; month := 2; day := 2 |};
     Sales := 50; Profit := 5 |}.

(** A loss-making sale, as the Superstore file has many. *)
Definition row_loss : Row (option Timestamp) :=
  {| idx := 1; Region := Text "West"; Category := Text "Office";
     Sub_Category := Text "Paper";
     Order_Date := Some {| year := 2020; month := 2; day := 2 |};
     Sales := 50; Profit := -20 |}.

(** A sale of half a unit of currency. *)
Definition row_half : Row (option Timestamp) :=
  {| idx := 0; Region := Text "East"; Category := Text "Furniture";
     Sub_Category := Text "Chairs";
     Order_Date := Some {| year := 2020; month := 1; day := 1 |};
     Sales := 1 # 2; Profit := 0 |}.

(** A sale of the largest amount a 64-bit integer holds, and a sale of 1. *)
Definition row_huge : Row (option Timestamp) :=
  {| idx := 0; Region := Text "East"; Category := Text "Furniture";
     Sub_Category := Text "Chairs";
     Order_Date := Some {| year := 2020; month := 1; day := 1 |};
     Sales := 9223372036854775807; Profit := 0 |}.

Definition row_one : Row (option Timestamp) :=
  {| idx := 1; Region := Text "West"; Category := Text "Office";
     Sub_Category := Text "Paper";
     Order_Date := Some {| year := 2020; month := 2; day := 2 |};
     Sales := 1; Profit := 0 |}.

(** A sale whose Region cell is empty in the file. *)
Definition row_nowhere : Row (option Timestamp) :=
  {| idx := 2; Region := Missing; Category := Text "Office";
     Sub_Category := Text "Paper";
     Order_Date := Some {| year := 2020; month := 3; day := 3 |};
     Sales := 100; Profit := 1 |}.

(** ** The words of the specification, for comparison with the code *)

(** [z] is [x] with its fractional part dropped: the integer next to [x] on
    the side of zero. *)
Definition truncated_to_integer (x : Q) (z : Z) : Prop :=
  ((0 <= x)%Q → (inject_Z z <= x)%Q ∧ (x < inject_Z z + 1)%Q) ∧
  ((x <= 0)%Q → (inject_Z z - 1 < x)%Q ∧ (x <= inject_Z z)%Q).

(** The elements that show data of the filtered view: metric cards, charts
    and the raw-data table. *)
Definition shows_data (e : Element) : bool :=
  match e with
  | StMetric _ _ | PlotlyChart _ | ExpanderDataframe _ _ => true
  | _ => false
  end.

(** The elements that report a problem: [st.error] and [st.warning]. *)
Definition is_alert (e : Element) : bool :=
  match e with
  | StError _ | StWarning _ => true
  | _ => false
  end.

(** What the script has emitted once both filters are on the page. *)
Definition page_up_to_filters (df : DataFrame) : list Element :=
  [PageConfig "Superstore Sales Dashboard" "🛒" "wide" "expanded";
   StMarkdown css;
   SidebarHeader "Dashboard Filters";
   SidebarMultiselect "Select Region:" (region_options df) (region_options df);
   SidebarMultiselect "Select Category:" (category_options df) (category_options df)].

(** The view the script computes from the loaded frame and the widgets. *)
Definition selected_view (df : DataFrame) (w : Widgets) : DataFrame :=
  query df (default (region_options df) (picked_region w))
           (default (category_options df) (picked_category w)).

(** The line numbers of the file whose Order Date parses. *)
Definition dated_at (to_datetime : string → option Timestamp)
    (lines : list CsvLine) (i : nat) : Prop :=
  is_Some (lines !! i ≫= λ l, to_datetime (csv_Order_Date l)).

#[global] Instance dated_at_dec to_datetime lines i :
  Decision (dated_at to_datetime lines i).
Proof. unfold dated_at. apply _. Defined.

(** * Properties *)

(** ** Facts about [unique] *)

Lemma elem_of_unique_from seen l x :
  x ∈ unique_from seen l ↔ x ∈ l ∧ x ∉ seen.
Proof.
  revert seen. induction l as [|y l IH]; intros seen; simpl.
  - split; [intros H; inversion H | intros [H _]; inversion H].
  - destruct (decide (y ∈ seen)) as [Hy|Hy].
    + rewrite IH, elem_of_cons. split; [tauto|].
      intros [[->|H] Hn]; [contradiction | tauto].
    + rewrite !elem_of_cons, IH, elem_of_cons.
      destruct (decide (x = y)) as [->|Hne]; [tauto|]. tauto.
Qed.

Lemma elem_of_unique l x : x ∈ unique l ↔ x ∈ l.
Proof.
  unfold unique. rewrite elem_of_unique_from.
  split; [tauto|]. intros H; split; [done|]. apply not_elem_of_nil.
Qed.

Lemma NoDup_unique_from seen l : NoDup (unique_from seen l).
Proof.
  revert seen. induction l as [|y l IH]; intros seen; simpl.
  - constructor.
  - destruct (decide (y ∈ seen)); [apply IH|].
    constructor; [|apply IH].
    rewrite elem_of_unique_from, elem_of_cons. tauto.
Qed.

Lemma NoDup_unique l : NoDup (unique l).
Proof. apply NoDup_unique_from. Qed.

(** ** Filter engine: properties *)

(** C2: a row of the dataset is in the filtered view exactly when its Region
    is among the selected regions and its Category among the selected
    categories. *)
Theorem query_includes_iff (df : DataFrame) (region category : list Key)
    (r : Row (option Timestamp)) :
  r ∈ query df region category ↔
  r ∈ df ∧ Region r ∈ region ∧ Category r ∈ category.
Proof. unfold query. rewrite list_elem_of_filter. tauto. Qed.

(** C3: with the default selection, every distinct Region and every distinct
    Category of the dataset, the filtered view is the dataset itself; this
    is the view of a run in which neither widget has been touched. *)
Theorem query_default_is_dataset (df : DataFrame) :
  query df (region_options df) (category_options df) = df ∧
  selected_view df untouched = df.
Proof.
  assert (H0 : query df (region_options df) (category_options df) = df);
    [|by split].
  unfold query, region_options, category_options.
  assert (H : Forall (λ r : Row (option Timestamp),
                Region r ∈ unique (Region <$> df) ∧
                Category r ∈ unique (Category <$> df)) df).
  { apply Forall_forall. intros r Hr.
    rewrite !elem_of_unique. split; apply list_elem_of_fmap; eauto. }
  revert H. generalize (unique (Region <$> df)) (unique (Category <$> df)).
  intros rs cs. induction 1 as [|r l Hr Hl IH]; [done|].
  rewrite filter_cons_True by done. by rewrite IH.
Qed.

(** C10: the filtered view is an order-preserving subsequence of the
    dataset: it is a sublist of it (rows unchanged, in the same relative
    order, none introduced), and it repeats no index label when the dataset
    repeats none. *)
Theorem query_is_subsequence (df : DataFrame) (region category : list Key) :
  query df region category `sublist_of` df ∧
  (∀ r, r ∈ query df region category → r ∈ df) ∧
  (NoDup (idx <$> df) → NoDup (idx <$> query df region category)).
Proof.
  assert (Hsub : query df region category `sublist_of` df)
    by apply sublist_filter.
  split; [done|]. split.
  - intros r Hr. by eapply (sublist_subseteq _ _ Hsub).
  - intros Hnd. eapply sublist_NoDup; [exact Hnd|].
    by apply fmap_sublist.
Qed.

(** The view of the two-row dataset for the West keeps distinct labels. *)
Lemma query_is_subsequence_witness :
  NoDup (idx <$> [row_chairs; row_paper]) ∧
  NoDup (idx <$> query [row_chairs; row_paper] [Text "West"]
                   [Text "Office"; Text "Furniture"]).
Proof.
  assert (H : NoDup (idx <$> [row_chairs; row_paper])).
  { apply (bool_decide_unpack _). vm_compute. exact I. }
  split; [exact H|].
  apply (query_is_subsequence [row_chairs; row_paper] [Text "West"]
           [Text "Office"; Text "Furniture"]).
  exact H.
Defined.

(** ** Data loader: properties *)




(** ** Arithmetic of the metrics *)

Lemma int_nonneg (x : Q) : (0 <= x)%Q → int_ x = Qfloor x.
Proof.
  destruct x as [n d]. unfold Qle, int_, Qfloor. simpl. intros Hn.
  apply Z.quot_div_nonneg; lia.
Qed.

Lemma int_nonpos (x : Q) : (x <= 0)%Q → int_ x = Qceiling x.
Proof.
  destruct x as [n d]. unfold Qle, int_, Qceiling, Qfloor. simpl. intros Hn.
  replace n with (- - n)%Z at 1 by lia.
  rewrite Z.quot_opp_l by lia. f_equal.
  apply Z.quot_div_nonneg; lia.
Qed.

Lemma int_truncates (x : Q) : truncated_to_integer x (int_ x).
Proof.
  split; intros Hx.
  - rewrite (int_nonneg x Hx). split; [apply Qfloor_le|].
    pose proof (Qlt_floor x) as H. by rewrite inject_Z_plus in H.
  - rewrite (int_nonpos x Hx). split; [|apply Qle_ceiling].
    pose proof (Qceiling_lt x) as H.
    unfold Z.sub in H. rewrite inject_Z_plus in H. exact H.
Qed.

Lemma int_mono (x y : Q) : (x <= y)%Q → (int_ x ≤ int_ y)%Z.
Proof.
  intros Hxy.
  destruct (Qlt_le_dec x 0) as [Hx|Hx], (Qlt_le_dec y 0) as [Hy|Hy].
  - rewrite !int_nonpos by lra. by apply Qceiling_resp_le.
  - rewrite (int_nonpos x), (int_nonneg y) by lra.
    assert (Qceiling x ≤ 0)%Z.
    { change 0%Z with (Qceiling 0). apply Qceiling_resp_le. lra. }
    assert (0 ≤ Qfloor y)%Z.
    { change 0%Z with (Qfloor 0). by apply Qfloor_resp_le. }
    lia.
  - exfalso. lra.
  - rewrite !int_nonneg by lra. by apply Qfloor_resp_le.
Qed.

Lemma int_proper (x y : Q) : (x == y)%Q → int_ x = int_ y.
Proof.
  intros Hxy.
  assert (int_ x ≤ int_ y)%Z by (apply int_mono; lra).
  assert (int_ y ≤ int_ x)%Z by (apply int_mono; lra).
  lia.
Qed.

(** ** Sums over frames *)

Lemma sum_cons (x : Q) (s : list Q) : sum (x :: s) = (x + sum s)%Q.
Proof. reflexivity. Qed.

(** Widening the selection adds rows to the view; when the added rows carry
    no negative amount in a column, the column's exact sum does not
    decrease. *)
Lemma sum_query_mono (col : Row (option Timestamp) → Q) (df : DataFrame)
    (r1 c1 r2 c2 : list Key) :
  r1 ⊆ r2 → c1 ⊆ c2 →
  (∀ r, r ∈ query df r2 c2 → r ∉ query df r1 c1 → (0 <= col r)%Q) →
  (sum (col <$> query df r1 c1) <= sum (col <$> query df r2 c2))%Q.
Proof.
  intros Hr Hc. unfold query.
  induction df as [|r df IH]; intros Hpos; [simpl; lra|].
  assert (IH' : (sum (col <$> filter (λ r, Region r ∈ r1 ∧ Category r ∈ c1) df)
                 <= sum (col <$> filter (λ r, Region r ∈ r2 ∧ Category r ∈ c2) df))%Q).
  { apply IH. intros r' H2 H1. apply Hpos.
    - rewrite list_elem_of_filter in *. rewrite elem_of_cons. tauto.
    - rewrite list_elem_of_filter in *. rewrite elem_of_cons.
      intros [Hp [->|Hin]]; tauto. }
  rewrite !filter_cons.
  destruct (decide (Region r ∈ r1 ∧ Category r ∈ c1)) as [[H1 H1']|H1].
  - rewrite decide_True by (split; [by apply Hr | by apply Hc]).
    rewrite !fmap_cons, !sum_cons. lra.
  - destruct (decide (Region r ∈ r2 ∧ Category r ∈ c2)) as [H2|H2]; [|done].
    rewrite fmap_cons, sum_cons.
    assert (0 <= col r)%Q; [|lra].
    apply Hpos; rewrite list_elem_of_filter, elem_of_cons; [tauto|].
    intros [? _]. tauto.
Qed.

(** C1, as the code has it: when the selection is widened, Total Sales does
    not decrease provided pandas computes the Sales sum of both views
    exactly (no rounding, no wrap-around) and no row that the wider
    selection adds has negative Sales; Total Profit does not decrease under
    the same provisos on Profit. *)
Theorem totals_monotone_when_added_rows_nonnegative (np : Numerics)
    (df : DataFrame) (r1 c1 r2 c2 : list Key) :
  r1 ⊆ r2 → c1 ⊆ c2 →
  (computed_exactly (Sales_sum np) (Sales <$> query df r1 c1) →
   computed_exactly (Sales_sum np) (Sales <$> query df r2 c2) →
   (∀ r, r ∈ query df r2 c2 → r ∉ query df r1 c1 → (0 <= Sales r)%Q) →
   (total_sales np (query df r1 c1) ≤ total_sales np (query df r2 c2))%Z) ∧
  (computed_exactly (Profit_sum np) (Profit <$> query df r1 c1) →
   computed_exactly (Profit_sum np) (Profit <$> query df r2 c2) →
   (∀ r, r ∈ query df r2 c2 → r ∉ query df r1 c1 → (0 <= Profit r)%Q) →
   (total_profit np (query df r1 c1) ≤ total_profit np (query df r2 c2))%Z).
Proof.
  intros Hr Hc. unfold computed_exactly.
  split; intros E1 E2 Hpos; apply int_mono; rewrite E1, E2;
    by apply sum_query_mono.
Qed.

(** Adding the West, whose sale is positive, does not lower Total Sales. *)
Lemma totals_monotone_witness :
  (total_sales exact_arithmetic
     (query [row_chairs; row_loss] [Text "East"]
        [Text "Furniture"; Text "Office"])
   ≤ total_sales exact_arithmetic
       (query [row_chairs; row_loss] [Text "East"; Text "West"]
          [Text "Furniture"; Text "Office"]))%Z.
Proof.
  apply (totals_monotone_when_added_rows_nonnegative exact_arithmetic
           [row_chairs; row_loss] [Text "East"]
           [Text "Furniture"; Text "Office"] [Text "East"; Text "West"]
           [Text "Furniture"; Text "Office"]).
  - intros x Hx. apply elem_of_cons. left.
    by apply list_elem_of_singleton in Hx.
  - done.
  - reflexivity.
  - reflexivity.
  - intros r Hr _. vm_compute in Hr.
    apply elem_of_cons in Hr as [->|Hr]; [discriminate|].
    apply list_elem_of_singleton in Hr as ->. discriminate.
Defined.

(** C1 as stated fails: with a loss-making sale in the West, widening the
    Region selection from East to East and West lowers Total Profit from 10
    to -10, both views being non-empty.  The amounts are whole numbers, on
    which pandas' sums are the exact ones. *)
Lemma totals_not_monotone :
  [Text "East"] ⊆ [Text "East"; Text "West"] ∧
  query [row_chairs; row_loss] [Text "East"] [Text "Furniture"; Text "Office"] ≠ [] ∧
  total_profit exact_arithmetic
    (query [row_chairs; row_loss] [Text "East"]
       [Text "Furniture"; Text "Office"]) = 10%Z ∧
  total_profit exact_arithmetic
    (query [row_chairs; row_loss] [Text "East"; Text "West"]
       [Text "Furniture"; Text "Office"]) = (-10)%Z ∧
  ¬ ((total_sales exact_arithmetic
        (query [row_chairs; row_loss] [Text "East"]
           [Text "Furniture"; Text "Office"])
      ≤ total_sales exact_arithmetic
          (query [row_chairs; row_loss] [Text "East"; Text "West"]
             [Text "Furniture"; Text "Office"]))%Z ∧
     (total_profit exact_arithmetic
        (query [row_chairs; row_loss] [Text "East"]
           [Text "Furniture"; Text "Office"])
      ≤ total_profit exact_arithmetic
          (query [row_chairs; row_loss] [Text "East"; Text "West"]
             [Text "Furniture"; Text "Office"]))%Z).
Proof.
  split.
  { intros x Hx. apply elem_of_cons. left. by apply list_elem_of_singleton in Hx. }
  split; [by vm_compute|]. split; [reflexivity|]. split; [reflexivity|].
  intros [_ H]. vm_compute in H. by apply H.
Qed.

(** Why the sums must be the exact ones: on a column of 64-bit integers the
    sum wraps around, and adding a sale of 1 to a sale of
    9223372036854775807 then lowers Total Sales. *)
Lemma wrapped_sum_lowers_total_sales (np : Numerics) :
  (Sales_sum np [9223372036854775807] == 9223372036854775807)%Q →
  (Sales_sum np [9223372036854775807; 1] == -9223372036854775808)%Q →
  (total_sales np (query [row_huge; row_one] [Text "East"; Text "West"]
                     [Text "Furniture"; Text "Office"])
   < total_sales np (query [row_huge; row_one] [Text "East"]
                       [Text "Furniture"; Text "Office"]))%Z.
Proof.
  intros H1 H2. unfold total_sales.
  change (Sales <$> query [row_huge; row_one] [Text "East"; Text "West"]
                      [Text "Furniture"; Text "Office"])
    with [9223372036854775807%Q; 1%Q].
  change (Sales <$> query [row_huge; row_one] [Text "East"]
                      [Text "Furniture"; Text "Office"])
    with [9223372036854775807%Q].
  rewrite (int_proper _ _ H1), (int_proper _ _ H2). reflexivity.
Qed.

(** ** Sorting *)

Section sort_by_correct.
Context {A : Type} (R : relation A) `{!RelDecision R}.

Lemma insert_by_Permutation (x : A) (l : list A) : insert_by R x l ≡ₚ x :: l.
Proof.
  induction l as [|y l IH]; simpl; [done|].
  destruct (decide (R x y)); [done|].
  rewrite IH. apply Permutation_swap.
Qed.

Lemma sort_by_Permutation (l : list A) : sort_by R l ≡ₚ l.
Proof.
  induction l as [|x l IH]; simpl; [done|].
  by rewrite insert_by_Permutation, IH.
Qed.

Lemma HdRel_insert_by (x y : A) (l : list A) :
  HdRel R y l → R y x → HdRel R y (insert_by R x l).
Proof.
  intros Hhd Hyx. destruct l as [|z l]; simpl; [by constructor|].
  destruct (decide (R x z)); constructor; [done|].
  by inversion Hhd.
Qed.

Lemma Sorted_insert_by `{!Total R} (x : A) (l : list A) :
  Sorted R l → Sorted R (insert_by R x l).
Proof.
  induction 1 as [|y l Hs IH Hhd]; simpl; [by repeat constructor|].
  destruct (decide (R x y)) as [Hxy|Hxy].
  - constructor; [by constructor|by constructor].
  - constructor; [exact IH|]. apply HdRel_insert_by; [done|].
    by destruct (total R x y).
Qed.

Lemma Sorted_sort_by `{!Total R} (l : list A) : Sorted R (sort_by R l).
Proof.
  induction l as [|x l IH]; simpl; [constructor|].
  by apply Sorted_insert_by.
Qed.

End sort_by_correct.

Lemma Sorted_adjacent {A} (R : relation A) (l : list A) (i : nat) (a b : A) :
  Sorted R l → l !! i = Some a → l !! S i = Some b → R a b.
Proof.
  intros Hs. revert i. induction Hs as [|x l Hs IH Hhd]; intros i Ha Hb.
  - by rewrite lookup_nil in Ha.
  - destruct i as [|i]; simpl in *.
    + injection Ha as ->. destruct Hhd as [|y l Hxy]; [done|].
      simpl in Hb. by injection Hb as ->.
    + by eapply IH.
Qed.

#[global] Instance value_le_total : Total value_le.
Proof.
  intros a b. unfold value_le.
  destruct (Qlt_le_dec (a.2) (b.2)) as [H|H]; [left|right]; [|done].
  by apply Qlt_le_weak.
Qed.

#[global] Instance key_le_total : Total key_le.
Proof.
  intros [s|x|] [t|y|]; unfold key_le; simpl; auto.
  - unfold String.leb. rewrite (String.compare_antisym s t).
    destruct (String.compare t s); simpl; auto.
  - destruct (Z.leb_spec x y); [by left|right].
    apply Is_true_true, Z.leb_le. lia.
Qed.

(** ** Group-by aggregates *)

Lemma filter_all {A} (P : A → Prop) `{!∀ x, Decision (P x)} (l : list A) :
  (∀ x, x ∈ l → P x) → filter P l = l.
Proof.
  induction l as [|x l IH]; intros Hall; [done|].
  rewrite filter_cons_True by (apply Hall; left).
  rewrite IH; [done|]. intros y Hy. apply Hall. by right.
Qed.

Lemma filter_ext_in {A} (P1 P2 : A → Prop)
    `{!∀ x, Decision (P1 x), !∀ x, Decision (P2 x)} (l : list A) :
  (∀ x, x ∈ l → P1 x ↔ P2 x) → filter P1 l = filter P2 l.
Proof.
  induction l as [|a l IH]; intros Hiff; [done|].
  rewrite !filter_cons, IH by (intros x Hx; apply Hiff; by right).
  destruct (decide (P1 a)) as [H1|H1], (decide (P2 a)) as [H2|H2];
    try done; exfalso; apply (Hiff a) in H1 || apply (Hiff a) in H2;
    try done; left.
Qed.

Lemma sum_fmap_ext {A} (f g : A → Q) (l : list A) :
  (∀ x, x ∈ l → (f x == g x)%Q) → (sum (f <$> l) == sum (g <$> l))%Q.
Proof.
  induction l as [|x l IH]; intros H; [reflexivity|].
  rewrite !fmap_cons, !sum_cons.
  assert (E1 : (f x == g x)%Q) by (apply H; left).
  assert (E2 : (sum (f <$> l) == sum (g <$> l))%Q).
  { apply IH. intros y Hy. apply H. by right. }
  by rewrite E1, E2.
Qed.

Section groups.
Variable key : Row (option Timestamp) → Key.
Variable col : Row (option Timestamp) → Q.

(** The rows of a key outside [ks] and the rows of the keys in [ks] add up
    to the rows of all of them. *)
Lemma sum_filter_key_cons (k : Key) (ks : list Key) (df : DataFrame) :
  k ∉ ks →
  (sum (col <$> filter (λ r, key r ∈ k :: ks) df) ==
   sum (col <$> filter (λ r, key r = k) df) +
   sum (col <$> filter (λ r, key r ∈ ks) df))%Q.
Proof.
  intros Hk. induction df as [|r df IH]; [reflexivity|].
  rewrite !filter_cons.
  destruct (decide (key r = k)) as [Heq|Hne].
  - rewrite decide_True by (rewrite Heq; left).
    rewrite decide_False by (by rewrite Heq).
    rewrite !fmap_cons, !sum_cons, IH. ring.
  - destruct (decide (key r ∈ ks)) as [Hin|Hnin].
    + rewrite decide_True by (by right).
      rewrite !fmap_cons, !sum_cons, IH. ring.
    + rewrite decide_False; [exact IH|].
      rewrite elem_of_cons. tauto.
Qed.

(** The exact per-key sums over distinct keys add up to the exact sum over
    the rows that have one of these keys. *)
Lemma sum_group_sums (ks : list Key) (df : DataFrame) :
  NoDup ks →
  (sum ((λ k, sum (col <$> filter (λ r, key r = k) df)) <$> ks) ==
   sum (col <$> filter (λ r, key r ∈ ks) df))%Q.
Proof.
  induction 1 as [|k ks Hk Hnd IH].
  - assert (filter (λ r, key r ∈ []) df = []) as ->; [|reflexivity].
    induction df as [|r df IHdf]; [done|].
    rewrite filter_cons_False; [done|]. apply not_elem_of_nil.
  - rewrite fmap_cons, sum_cons, IH. symmetry. by apply sum_filter_key_cons.
Qed.

(** The groups are the keys present in the frame, the missing one apart. *)
Lemma elem_of_group_keys (df : DataFrame) (k : Key) :
  k ∈ group_keys key df ↔ k ≠ Missing ∧ ∃ r, r ∈ df ∧ key r = k.
Proof.
  unfold group_keys.
  rewrite sort_by_Permutation, list_elem_of_filter, elem_of_unique.
  rewrite list_elem_of_fmap.
  split; intros (? & r & ? & ?); split; eauto.
Qed.

Lemma NoDup_group_keys (df : DataFrame) : NoDup (group_keys key df).
Proof.
  unfold group_keys. rewrite sort_by_Permutation.
  apply NoDup_filter, NoDup_unique.
Qed.

End groups.

Lemma groupby_sum_Sales_index (np : Numerics)
    (key : Row (option Timestamp) → Key) (df : DataFrame) :
  (groupby_sum_Sales np key df).*1 = group_keys key df.
Proof.
  unfold groupby_sum_Sales. rewrite <- list_fmap_compose.
  rewrite <- (list_fmap_id (group_keys key df)) at 2.
  by apply list_fmap_ext.
Qed.

Lemma elem_of_groupby_sum_Sales (np : Numerics)
    (key : Row (option Timestamp) → Key) (df : DataFrame) (k : Key) (x : Q) :
  (k, x) ∈ groupby_sum_Sales np key df ↔
  k ≠ Missing ∧ (∃ r, r ∈ df ∧ key r = k) ∧
  x = group_sum np (Sales <$> filter (λ r, key r = k) df).
Proof.
  unfold groupby_sum_Sales. rewrite list_elem_of_fmap. split.
  - intros (k' & [= -> ->] & Hk). apply elem_of_group_keys in Hk. tauto.
  - intros (Hk & Hr & ->). exists k. split; [done|].
    apply elem_of_group_keys. tauto.
Qed.

(** When every group sum is the exact one, the values of the aggregate add
    up to the exact sum of the column over the rows whose key is not
    missing. *)
Lemma groupby_sum_Sales_values (np : Numerics)
    (key : Row (option Timestamp) → Key) (df : DataFrame) :
  (∀ k, computed_exactly (group_sum np)
          (Sales <$> filter (λ r, key r = k) df)) →
  (sum ((groupby_sum_Sales np key df).*2) ==
   sum (Sales <$> filter (λ r, key r ≠ Missing) df))%Q.
Proof.
  intros Hexact. unfold groupby_sum_Sales.
  rewrite <- list_fmap_compose.
  rewrite (sum_fmap_ext _ (λ k, sum (Sales <$> filter (λ r, key r = k) df)))
    by (intros k _; apply Hexact).
  rewrite (sum_group_sums key Sales) by apply NoDup_group_keys.
  rewrite (filter_ext_in (λ r, key r ∈ group_keys key df)
             (λ r, key r ≠ Missing)); [reflexivity|].
  intros r Hr. rewrite elem_of_group_keys. split; [tauto|]. eauto.
Qed.

(** C7, as the code has it: on a filtered view on which pandas computes the
    Sales sum of each Region group exactly, the pie's slice values add up to
    the sum of Sales over the rows whose Region is not missing, and the pie
    has a slice exactly when there is such a row.  So when no Region of the
    view is missing the slice values add up to the sum of the Sales column;
    and when pandas computes that sum exactly too, the Total Sales metric is
    the sum of the slices with its fractional part dropped. *)
Theorem pie_slices_sum_to_sales (np : Numerics) (df_selection : DataFrame) :
  (∀ k, computed_exactly (group_sum np)
          (Sales <$> filter (λ r, Region r = k) df_selection)) →
  (sum ((sales_by_region np df_selection).*2) ==
   sum (Sales <$> filter (λ r, Region r ≠ Missing) df_selection))%Q ∧
  (sales_by_region np df_selection ≠ [] ↔
   ∃ r, r ∈ df_selection ∧ Region r ≠ Missing) ∧
  ((∀ r, r ∈ df_selection → Region r ≠ Missing) →
   (sum ((sales_by_region np df_selection).*2) ==
    sum (Sales <$> df_selection))%Q ∧
   (computed_exactly (Sales_sum np) (Sales <$> df_selection) →
    total_sales np df_selection =
      int_ (sum ((sales_by_region np df_selection).*2)))).
Proof.
  intros Hgroups.
  pose proof (groupby_sum_Sales_values np Region df_selection Hgroups)
    as Hsum.
  split; [exact Hsum|]. split.
  - unfold sales_by_region. split.
    + destruct (groupby_sum_Sales np Region df_selection) as [|[k x] s] eqn:E;
        [done|]. intros _.
      assert (Hin : (k, x) ∈ groupby_sum_Sales np Region df_selection)
        by (rewrite E; left).
      apply elem_of_groupby_sum_Sales in Hin as (Hk & (r & Hr & <-) & _).
      eauto.
    + intros (r & Hr & Hk) Hnil.
      assert (Hin : Region r ∈ group_keys Region df_selection)
        by (apply elem_of_group_keys; eauto).
      rewrite <- (groupby_sum_Sales_index np), Hnil in Hin.
      by apply elem_of_nil in Hin.
  - intros Hkeys.
    assert (Hall : (sum ((sales_by_region np df_selection).*2) ==
                    sum (Sales <$> df_selection))%Q).
    { rewrite Hsum. by rewrite filter_all. }
    split; [exact Hall|]. intros Htotal.
    unfold total_sales. apply int_proper.
    unfold computed_exactly in Htotal. by rewrite Htotal, Hall.
Qed.

(** The two slices of the two-row dataset add up to its Sales. *)
Lemma pie_slices_sum_to_sales_witness :
  (sum ((sales_by_region exact_arithmetic [row_chairs; row_paper]).*2) ==
   sum (Sales <$> [row_chairs; row_paper]))%Q.
Proof.
  destruct (pie_slices_sum_to_sales exact_arithmetic [row_chairs; row_paper])
    as (_ & _ & H).
  - intros k. reflexivity.
  - destruct H as [H _]; [|exact H]. intros r Hr.
    apply elem_of_cons in Hr as [->|Hr]; [discriminate|].
    apply list_elem_of_singleton in Hr as ->. discriminate.
Defined.

(** C7 as stated fails: for a view of one sale of half a unit, the only pie
    slice is 1/2 while the Total Sales metric is 0.  One half is a binary
    fraction, so pandas' sums are the exact ones here. *)
Lemma pie_slices_differ_from_total_sales :
  [row_half] ≠ [] ∧
  (sales_by_region exact_arithmetic [row_half]).*2 = [(1 # 2)%Q] ∧
  total_sales exact_arithmetic [row_half] = 0%Z ∧
  ¬ (sum ((sales_by_region exact_arithmetic [row_half]).*2) ==
     inject_Z (total_sales exact_arithmetic [row_half]))%Q.
Proof.
  split; [discriminate|]. split; [reflexivity|]. split; [reflexivity|].
  vm_compute. discriminate.
Qed.

(** C6: the Sub-Category aggregate pairs every Sub-Category of the view
    (a missing one apart) once with the sum pandas computes over the Sales
    of its rows; the bar sequence is that aggregate reordered, and it is in
    ascending order of the sums: of two adjacent bars the earlier has the
    smaller or equal value. *)
Theorem subcategory_bars_ascending (np : Numerics) (df_selection : DataFrame) :
  let bars := sales_by_subcategory np df_selection in
  bars ≡ₚ groupby_sum_Sales np Sub_Category df_selection ∧
  NoDup (bars.*1) ∧
  (∀ k x, (k, x) ∈ bars ↔
          k ≠ Missing ∧ (∃ r, r ∈ df_selection ∧ Sub_Category r = k) ∧
          x = group_sum np
                (Sales <$> filter (λ r, Sub_Category r = k) df_selection)) ∧
  (∀ i a b, bars !! i = Some a → bars !! S i = Some b → (a.2 <= b.2)%Q).
Proof.
  intros bars.
  assert (Hperm : bars ≡ₚ groupby_sum_Sales np Sub_Category df_selection)
    by apply sort_by_Permutation.
  split; [exact Hperm|]. split; [|split].
  - rewrite Hperm, groupby_sum_Sales_index. apply NoDup_group_keys.
  - intros k x. rewrite Hperm. apply elem_of_groupby_sum_Sales.
  - intros i a b. apply (Sorted_adjacent value_le).
    apply Sorted_sort_by, _.
Qed.

(** Paper (50) comes before Chairs (100). *)
Example subcategory_bars_example :
  sales_by_subcategory exact_arithmetic [row_chairs; row_paper] =
  [(Text "Paper", 50%Q); (Text "Chairs", 100%Q)].
Proof. reflexivity. Qed.
(** ** The script, run top to bottom *)

Section run.
Variable read_csv : string → CsvResult.
Variable to_datetime : string → option Timestamp.
Variable np : Numerics.

(** Once the file is read, the script puts the filters on the page and then
    either warns and stops, or renders the main page. *)
Lemma app_loaded (w : Widgets) (lines : list CsvLine) :
  read_csv data_path = Parsed lines →
  let df := dropna (convert_Order_Date to_datetime (frame_of_lines lines)) in
  app read_csv to_datetime np w =
  match selected_view df w with
  | [] => ((page_up_to_filters df ++ [StWarning empty_warning])%list, Stopped)
  | _ :: _ =>
      ((page_up_to_filters df ++ (main_page np (selected_view df w)).1)%list, Done tt)
  end.
Proof.
  intros Hread df. unfold app, load_data. rewrite Hread.
  fold df. unfold selected_view, df_selection_of, multiselect. simpl.
  destruct (query df _ _) as [|r v]; reflexivity.
Qed.

(** C8: when the filtered view is empty, the run shows a warning right
    after the filters and stops there, so the page holds no metric, chart or
    table; and any run whose page holds a metric, a chart or the table was
    rendered from a non-empty view. *)
Theorem empty_view_warns_and_halts (w : Widgets) (lines : list CsvLine) :
  read_csv data_path = Parsed lines →
  let df := dropna (convert_Order_Date to_datetime (frame_of_lines lines)) in
  (selected_view df w = [] →
   app read_csv to_datetime np w =
     ((page_up_to_filters df ++ [StWarning empty_warning])%list, Stopped)) ∧
  (∀ e, e ∈ (app read_csv to_datetime np w).1 → shows_data e = true →
        selected_view df w ≠ []).
Proof.
  intros Hread df. pose proof (app_loaded w lines Hread) as Happ.
  fold df in Happ. split.
  - intros Hempty. by rewrite Happ, Hempty.
  - intros e He Hdata Hempty. rewrite Happ, Hempty in He. simpl in He.
    repeat (apply elem_of_cons in He as [->|He]; [discriminate|]).
    by apply elem_of_nil in He.
Qed.

(** C9: for every path, a missing file makes the loader report that the
    file was not found, and any other exception makes it report the
    exception's message; in both cases it returns no dataset.  When the
    loader returns no dataset for the script's path, the run stops right
    after the loader's report: no filter widget and no later section is on
    the page. *)
Theorem load_failure_reports_and_halts (path : string) (w : Widgets) :
  (read_csv path = FileNotFoundError →
   load_data read_csv to_datetime path =
     ([StError ("Error: The file '" ++ path ++
         "' was not found. Please make sure it is in the same folder as the script.")],
      Done None)) ∧
  (∀ e, read_csv path = OtherException e →
   load_data read_csv to_datetime path =
     ([StError ("An error occurred while loading the data: " ++ e)], Done None)) ∧
  (∀ report, load_data read_csv to_datetime data_path = (report, Done None) →
   app read_csv to_datetime np w =
     (PageConfig "Superstore Sales Dashboard" "🛒" "wide" "expanded" :: report,
      Stopped)).
Proof.
  split; [|split].
  - intros H. unfold load_data. by rewrite H.
  - intros e H. unfold load_data. by rewrite H.
  - intros report H. unfold app. rewrite H. simpl. by rewrite app_nil_r.
Qed.

End run.

(** With no Region picked the run ends on the warning. *)
Lemma empty_view_warns_and_halts_witness :
  app (only_file [chairs; paper]) strptime_mdY exact_arithmetic no_region =
  ((page_up_to_filters [row_chairs; row_paper] ++ [StWarning empty_warning])%list, Stopped).
Proof.
  apply (empty_view_warns_and_halts (only_file [chairs; paper]) strptime_mdY
           exact_arithmetic no_region [chairs; paper] eq_refl).
  reflexivity.
Defined.

(** A missing file, and a file pandas cannot parse. *)
Lemma load_failure_reports_and_halts_witness :
  app (λ _, FileNotFoundError) strptime_mdY exact_arithmetic untouched =
    ([PageConfig "Superstore Sales Dashboard" "🛒" "wide" "expanded";
      StError "Error: The file 'superstore_sales.csv' was not found. Please make sure it is in the same folder as the script."],
     Stopped) ∧
  app (λ _, OtherException "No columns to parse from file") strptime_mdY exact_arithmetic untouched =
    ([PageConfig "Superstore Sales Dashboard" "🛒" "wide" "expanded";
      StError "An error occurred while loading the data: No columns to parse from file"],
     Stopped).
Proof.
  split.
  - destruct (load_failure_reports_and_halts (λ _, FileNotFoundError)
                strptime_mdY exact_arithmetic data_path untouched)
      as (Hload & _ & Happ).
    exact (Happ _ (Hload eq_refl)).
  - destruct (load_failure_reports_and_halts
                (λ _, OtherException "No columns to parse from file")
                strptime_mdY exact_arithmetic data_path untouched)
      as (_ & Hload & Happ).
    exact (Happ _ (Hload _ eq_refl)).
Defined.

(** ** The scenarios of the specification, run

    The amounts of the scenarios are whole numbers, on which pandas'
    results are the exact ones. *)

Example scenario_default_filters :
  let v := selected_view [row_chairs; row_paper] untouched in
  v = [row_chairs; row_paper] ∧
  total_sales exact_arithmetic v = 150%Z ∧
  total_profit exact_arithmetic v = 15%Z ∧
  (average_sale exact_arithmetic v == 75)%Q ∧
  length (sales_by_subcategory exact_arithmetic v) = 2 ∧
  length (sales_by_region exact_arithmetic v) = 2.
Proof. by vm_compute. Qed.

Example scenario_east_only :
  let v := selected_view [row_chairs; row_paper] only_east in
  v = [row_chairs] ∧ total_sales exact_arithmetic v = 100%Z ∧
  length (sales_by_region exact_arithmetic v) = 1.
Proof. by vm_compute. Qed.

Example scenario_dates :
  load_data (only_file [chairs; undated; paper]) strptime_mdY data_path =
  ([], Done (Some [row_chairs;
                   {| idx := 2; Region := Text "West"; Category := Text "Office";
                      Sub_Category := Text "Paper";
                      Order_Date := Some {| year := 2020; month := 2; day := 2 |};
                      Sales := 50; Profit := 5 |}])).
Proof. reflexivity. Qed.

Example scenario_render :
  ∃ page,
    app (only_file [chairs; paper]) strptime_mdY exact_arithmetic untouched =
      (page, Done tt) ∧
    filter (λ e, shows_data e = true) page =
      [StMetric "Total Sales" {| amount := 150; decimals := 0 |};
       StMetric "Total Profit" {| amount := 15; decimals := 0 |};
       StMetric "Average Sale Value" {| amount := 7500 # 100; decimals := 2 |};
       PlotlyChart (Bar "<b>Sales by Product Sub-Category</b>"
                      [50%Q; 100%Q] [Text "Paper"; Text "Chairs"]);
       PlotlyChart (Pie "<b>Sales by Region</b>" [100%Q; 50%Q]
                      [Text "East"; Text "West"] [(5 # 100)%Q; (5 # 100)%Q]);
       ExpanderDataframe "View Raw Data Table" [row_chairs; row_paper]].
Proof. eexists. split; vm_compute; reflexivity. Qed.

(** A sale whose Region cell is empty stays in the view when the missing
    value is among the picks, and has no pie slice. *)
Example scenario_missing_region :
  let v := selected_view [row_chairs; row_nowhere] untouched in
  v = [row_chairs; row_nowhere] ∧
  sales_by_region exact_arithmetic v = [(Text "East", 100%Q)].
Proof. by vm_compute. Qed.

(** * Further properties of the script *)

(** ** Filter options and selections *)

Lemma unique_from_sublist (seen l : list Key) :
  unique_from seen l `sublist_of` l.
Proof.
  revert seen. induction l as [|x l IH]; intros seen; simpl; [constructor|].
  destruct (decide (x ∈ seen)).
  - apply sublist_cons, IH.
  - apply sublist_skip, IH.
Qed.

(** Only the members of [seen] matter. *)
Lemma unique_from_seen (s1 s2 l : list Key) :
  (∀ x, x ∈ s1 ↔ x ∈ s2) → unique_from s1 l = unique_from s2 l.
Proof.
  revert s1 s2. induction l as [|y l IH]; intros s1 s2 Hs; simpl; [done|].
  destruct (decide (y ∈ s1)) as [H1|H1], (decide (y ∈ s2)) as [H2|H2].
  - by apply IH.
  - by apply Hs in H1.
  - by apply Hs in H2.
  - f_equal. apply IH. intros x. rewrite !elem_of_cons, Hs. tauto.
Qed.

Lemma unique_from_app (seen l1 l2 : list Key) :
  unique_from seen (l1 ++ l2)%list =
  (unique_from seen l1 ++ unique_from (l1 ++ seen) l2)%list.
Proof.
  revert seen. induction l1 as [|y l1 IH]; intros seen; simpl; [done|].
  destruct (decide (y ∈ seen)) as [Hy|Hy].
  - rewrite IH. f_equal. apply unique_from_seen.
    intros x. rewrite !elem_of_cons, !elem_of_app.
    split; [tauto|]. intros [->|?]; tauto.
  - rewrite IH. simpl. do 2 f_equal. apply unique_from_seen.
    intros x. rewrite !elem_of_cons, !elem_of_app, !elem_of_cons. tauto.
Qed.

(** At the first place where a column shows a value, the value follows the
    distinct values of the cells before it. *)
Lemma unique_first_occurrence (l1 l2 : list Key) (x : Key) :
  x ∉ l1 → ∃ rest, unique (l1 ++ x :: l2)%list = (unique l1 ++ x :: rest)%list.
Proof.
  intros Hx. unfold unique. rewrite unique_from_app. simpl.
  rewrite decide_False; [by eexists|].
  by rewrite elem_of_app, elem_of_nil; intros [?|?].
Qed.

(** The options offered by each filter widget are the values of the column:
    every Region (Category) of the dataset is offered, nothing else is, no
    option is offered twice, and the options come in the order in which the
    dataset first shows them: where the column shows a value for the first
    time, the options are the options of the cells before, then that value,
    then the rest. *)
Theorem filter_options_are_distinct_values (df : DataFrame) :
  (∀ x, x ∈ region_options df ↔ ∃ r, r ∈ df ∧ Region r = x) ∧
  (∀ x, x ∈ category_options df ↔ ∃ r, r ∈ df ∧ Category r = x) ∧
  NoDup (region_options df) ∧ NoDup (category_options df) ∧
  (∀ l1 x l2, Region <$> df = (l1 ++ x :: l2)%list → x ∉ l1 →
     ∃ rest, region_options df = (unique l1 ++ x :: rest)%list) ∧
  (∀ l1 x l2, Category <$> df = (l1 ++ x :: l2)%list → x ∉ l1 →
     ∃ rest, category_options df = (unique l1 ++ x :: rest)%list).
Proof.
  unfold region_options, category_options.
  split; [|split; [|split; [|split; [|split]]]];
    try apply NoDup_unique.
  - intros x. rewrite elem_of_unique, list_elem_of_fmap.
    split; intros (r & H1 & H2); eauto.
  - intros x. rewrite elem_of_unique, list_elem_of_fmap.
    split; intros (r & H1 & H2); eauto.
  - intros l1 x l2 -> Hx. by apply unique_first_occurrence.
  - intros l1 x l2 -> Hx. by apply unique_first_occurrence.
Qed.

(** West, East, West: West is offered first. *)
Example filter_options_example :
  region_options [row_paper; row_chairs; row_loss] = [Text "West"; Text "East"].
Proof. reflexivity. Qed.

(** Filtering the filtered view again with the same selection changes
    nothing. *)
Theorem query_idempotent (df : DataFrame) (region category : list Key) :
  query (query df region category) region category = query df region category.
Proof.
  unfold query. apply filter_all. intros r Hr.
  by apply list_elem_of_filter in Hr as [? _].
Qed.

(** The view depends on the picked values only as sets: picking the same
    values in another order, or listing one twice, gives the same view. *)
Theorem query_selection_as_sets (df : DataFrame) (r1 c1 r2 c2 : list Key) :
  (∀ x, x ∈ r1 ↔ x ∈ r2) → (∀ x, x ∈ c1 ↔ x ∈ c2) →
  query df r1 c1 = query df r2 c2.
Proof.
  intros Hr Hc. unfold query. apply list_filter_iff.
  intros x. by rewrite Hr, Hc.
Qed.

Lemma query_selection_as_sets_witness :
  query [row_chairs; row_paper] [Text "West"; Text "East"; Text "West"]
    [Text "Office"] =
  query [row_chairs; row_paper] [Text "East"; Text "West"] [Text "Office"].
Proof.
  apply (query_selection_as_sets [row_chairs; row_paper]).
  - intros x. rewrite !elem_of_cons. tauto.
  - done.
Defined.

(** A narrower selection gives a sub-view: when the selection is widened,
    the earlier view is an order-preserving subsequence of the new one. *)
Theorem query_widening_extends_view (df : DataFrame) (r1 c1 r2 c2 : list Key) :
  r1 ⊆ r2 → c1 ⊆ c2 →
  query df r1 c1 `sublist_of` query df r2 c2.
Proof.
  intros Hr Hc. unfold query. induction df as [|r df IH]; [constructor|].
  rewrite !filter_cons.
  destruct (decide (Region r ∈ r1 ∧ Category r ∈ c1)) as [[H1 H1']|H1].
  - rewrite decide_True by (split; [by apply Hr | by apply Hc]).
    by apply sublist_skip.
  - destruct (decide (Region r ∈ r2 ∧ Category r ∈ c2)); [|done].
    by apply sublist_cons.
Qed.

Lemma query_widening_extends_view_witness :
  query [row_chairs; row_paper] [Text "West"] [Text "Office"] `sublist_of`
  query [row_chairs; row_paper] [Text "East"; Text "West"]
    [Text "Office"; Text "Furniture"].
Proof.
  apply (query_widening_extends_view [row_chairs; row_paper]).
  - intros x Hx. apply list_elem_of_singleton in Hx as ->.
    rewrite !elem_of_cons. tauto.
  - intros x Hx. apply list_elem_of_singleton in Hx as ->.
    rewrite !elem_of_cons. tauto.
Defined.

(** ** The loaded dataset *)

Lemma converted_labels (to_datetime : string → option Timestamp)
    (lines : list CsvLine) :
  idx <$> convert_Order_Date to_datetime (frame_of_lines lines) =
  seq 0 (length lines).
Proof.
  unfold convert_Order_Date, frame_of_lines.
  rewrite <- list_fmap_compose, fmap_imap.
  rewrite <- (list_fmap_id (seq 0 (length lines))).
  rewrite <- (imap_seq_0 lines id). by apply imap_ext.
Qed.

(** The labels of the loaded dataset are the numbers of the lines whose date
    parses, in increasing order. *)
Lemma loaded_labels (to_datetime : string → option Timestamp)
    (lines : list CsvLine) :
  idx <$> dropna (convert_Order_Date to_datetime (frame_of_lines lines)) =
  filter (dated_at to_datetime lines) (seq 0 (length lines)).
Proof.
  induction lines as [|l lines IH] using rev_ind; [done|].
  unfold dropna, convert_Order_Date, frame_of_lines in *.
  rewrite imap_app, fmap_app, filter_app, fmap_app, IH.
  rewrite length_app, seq_app, filter_app. simpl length. f_equal.
  - apply filter_ext_in. intros i Hi. apply elem_of_seq in Hi.
    unfold dated_at. rewrite lookup_app_l by lia. done.
  - simpl. rewrite !filter_cons, !filter_nil. simpl.
    rewrite Nat.add_0_r.
    destruct (decide (dated_at to_datetime (lines ++ [l]) (length lines)))
      as [Hd|Hd]; unfold dated_at in Hd;
      rewrite list_lookup_middle in Hd by done; simpl in Hd.
    + by rewrite decide_True.
    + by rewrite decide_False.
Qed.

Lemma loaded_nil_iff_gen (to_datetime : string → option Timestamp)
    (f : nat → CsvLine → Row string) (lines : list CsvLine) :
  (∀ i l, Order_Date (f i l) = csv_Order_Date l) →
  dropna (convert_Order_Date to_datetime (imap f lines)) = [] ↔
  Forall (λ l, to_datetime (csv_Order_Date l) = None) lines.
Proof.
  revert f. induction lines as [|l lines IH]; intros f Hf; [by split|].
  unfold dropna, convert_Order_Date in *.
  rewrite imap_cons, fmap_cons, filter_cons, Forall_cons. simpl. rewrite Hf.
  specialize (IH (f ∘ S) (λ i l, Hf (S i) l)).
  destruct (to_datetime (csv_Order_Date l)) as [d|] eqn:Hd.
  - rewrite decide_True by eauto. split; [done|]. by intros [? _].
  - rewrite decide_False by (by intros [? ?]). rewrite IH. tauto.
Qed.

Lemma query_empty_pick (df : DataFrame) (region category : list Key) :
  region = [] ∨ category = [] → query df region category = [].
Proof.
  intros Hpick. unfold query. induction df as [|r df IH]; [done|].
  rewrite filter_cons_False; [done|].
  destruct Hpick as [-> | ->]; rewrite elem_of_nil; tauto.
Qed.

Section loaded.
Variable read_csv : string → CsvResult.
Variable to_datetime : string → option Timestamp.
Variable np : Numerics.

(** The loaded dataset keeps the index labels [read_csv] gave the lines and
    does not renumber: its labels are exactly the numbers of the lines whose
    date parses, in increasing order, so no two rows share a label. *)
Theorem load_data_keeps_labels (path : string) (lines : list CsvLine) :
  read_csv path = Parsed lines →
  ∃ df : DataFrame,
    load_data read_csv to_datetime path = ([], Done (Some df)) ∧
    idx <$> df =
      filter (dated_at to_datetime lines) (seq 0 (length lines)) ∧
    NoDup (idx <$> df).
Proof.
  intros Hread. eexists. split; [|split].
  - unfold load_data. rewrite Hread. reflexivity.
  - apply loaded_labels.
  - rewrite loaded_labels. apply NoDup_filter, NoDup_seq.
Qed.

(** When every line of the file has a date in the format, the dataset keeps
    every line: it has the rows of the file, labelled 0, 1, ..., n-1. *)
Theorem all_dated_lines_are_kept (path : string) (lines : list CsvLine) :
  read_csv path = Parsed lines →
  Forall (λ l, is_Some (to_datetime (csv_Order_Date l))) lines →
  ∃ df : DataFrame,
    load_data read_csv to_datetime path = ([], Done (Some df)) ∧
    df = convert_Order_Date to_datetime (frame_of_lines lines) ∧
    idx <$> df = seq 0 (length lines) ∧
    length df = length lines.
Proof.
  intros Hread Hall.
  assert (Hkeep : dropna (convert_Order_Date to_datetime (frame_of_lines lines))
                  = convert_Order_Date to_datetime (frame_of_lines lines)).
  { unfold dropna. apply filter_all. intros r Hr.
    unfold convert_Order_Date, frame_of_lines in Hr.
    apply list_elem_of_fmap in Hr as (raw & -> & Hraw).
    apply elem_of_lookup_imap in Hraw as (i & l & -> & Hl). simpl.
    rewrite Forall_forall in Hall. by eapply Hall, list_elem_of_lookup_2. }
  eexists. split; [|split; [|split]].
  - unfold load_data. rewrite Hread. reflexivity.
  - exact Hkeep.
  - rewrite Hkeep. apply converted_labels.
  - rewrite Hkeep. unfold convert_Order_Date, frame_of_lines.
    by rewrite length_fmap, length_imap.
Qed.

(** A file in which no line has a date in the format (a file with a header
    and no line is one) loads as an empty dataset: both filters are offered
    with no option and the run ends on the empty-view warning, whatever the
    widgets hold. *)
Theorem no_dated_line_warns (w : Widgets) (lines : list CsvLine) :
  read_csv data_path = Parsed lines →
  Forall (λ l, to_datetime (csv_Order_Date l) = None) lines →
  app read_csv to_datetime np w =
    ([PageConfig "Superstore Sales Dashboard" "🛒" "wide" "expanded";
      StMarkdown css;
      SidebarHeader "Dashboard Filters";
      SidebarMultiselect "Select Region:" [] [];
      SidebarMultiselect "Select Category:" [] [];
      StWarning empty_warning], Stopped).
Proof.
  intros Hread Hnone. rewrite (app_loaded read_csv to_datetime np w lines Hread).
  apply (loaded_nil_iff_gen to_datetime row_of_line lines (λ _ _, eq_refl))
    in Hnone.
  unfold frame_of_lines. by rewrite Hnone.
Qed.

(** Picking nothing in the Region filter, or nothing in the Category filter,
    always ends the run on the empty-view warning. *)
Theorem empty_pick_warns (w : Widgets) (lines : list CsvLine) :
  read_csv data_path = Parsed lines →
  picked_region w = Some [] ∨ picked_category w = Some [] →
  let df := dropna (convert_Order_Date to_datetime (frame_of_lines lines)) in
  app read_csv to_datetime np w =
    ((page_up_to_filters df ++ [StWarning empty_warning])%list, Stopped).
Proof.
  intros Hread Hpick df.
  rewrite (app_loaded read_csv to_datetime np w lines Hread). fold df.
  assert (Hnil : selected_view df w = []); [|by rewrite Hnil].
  unfold selected_view.
  destruct Hpick as [-> | ->]; simpl; apply query_empty_pick; tauto.
Qed.

End loaded.

(** Three lines, the middle one out of format: labels 0 and 2 are kept. *)
Lemma load_data_keeps_labels_witness :
  ∃ df : DataFrame,
    load_data (only_file [chairs; undated; paper]) strptime_mdY data_path =
      ([], Done (Some df)) ∧
    idx <$> df = [0; 2].
Proof.
  destruct (load_data_keeps_labels (only_file [chairs; undated; paper])
              strptime_mdY data_path [chairs; undated; paper] eq_refl)
    as (df & Hload & Hidx & _).
  exists df. split; [exact Hload | exact Hidx].
Defined.

(** Both lines of the two-line file are dated. *)
Lemma all_dated_lines_are_kept_witness :
  ∃ df : DataFrame,
    load_data (only_file [chairs; paper]) strptime_mdY data_path =
      ([], Done (Some df)) ∧
    length df = 2.
Proof.
  destruct (all_dated_lines_are_kept (only_file [chairs; paper]) strptime_mdY
              data_path [chairs; paper] eq_refl)
    as (df & Hload & _ & _ & Hlen).
  - apply Forall_cons. split; [by eexists|].
    apply Forall_cons. split; [by eexists|]. apply Forall_nil_2.
  - exists df. split; [exact Hload | exact Hlen].
Defined.

(** A file whose only line is out of format. *)
Lemma no_dated_line_warns_witness :
  (app (only_file [undated]) strptime_mdY exact_arithmetic only_east).2 = Stopped.
Proof.
  rewrite (no_dated_line_warns (only_file [undated]) strptime_mdY
             exact_arithmetic only_east [undated] eq_refl); [reflexivity|].
  apply Forall_cons. split; [reflexivity | apply Forall_nil_2].
Defined.

(** No Region picked. *)
Lemma empty_pick_warns_witness :
  (app (only_file [chairs; paper]) strptime_mdY exact_arithmetic no_region).2
  = Stopped.
Proof.
  rewrite (empty_pick_warns (only_file [chairs; paper]) strptime_mdY
             exact_arithmetic no_region [chairs; paper] eq_refl);
    [reflexivity|].
  left. reflexivity.
Defined.

(** ** How a run can end *)

Section outcomes.
Variable read_csv : string → CsvResult.
Variable to_datetime : string → option Timestamp.
Variable np : Numerics.

(** A run of the model has one of three shapes: the loader's error and
    nothing else; the filters and the warning; the filters and the main
    page. *)
Lemma app_shapes (w : Widgets) :
  (∃ msg, app read_csv to_datetime np w =
     ([PageConfig "Superstore Sales Dashboard" "🛒" "wide" "expanded";
       StError msg], Stopped)) ∨
  (∃ df, app read_csv to_datetime np w =
     ((page_up_to_filters df ++ [StWarning empty_warning])%list, Stopped)) ∨
  (∃ df v, app read_csv to_datetime np w =
     ((page_up_to_filters df ++ (main_page np v).1)%list, Done tt)).
Proof.
  destruct (read_csv data_path) as [|e|lines] eqn:Hread.
  - left. eexists. unfold app, load_data. rewrite Hread. reflexivity.
  - left. eexists. unfold app, load_data. rewrite Hread. reflexivity.
  - right. rewrite (app_loaded read_csv to_datetime np w lines Hread).
    destruct (selected_view _ w) as [|r v] eqn:Hv; [left|right]; eauto.
Qed.

(** The page configuration is the first element of every page.  A run is
    stopped by [st.stop()] exactly when its page holds an error or a
    warning; that alert is then the last element and the page holds no
    metric, chart or table.  A run that completes holds a metric, a chart
    or the table, and no error or warning. *)
Theorem run_ends_on_alert_or_shows_data (w : Widgets) :
  let page := (app read_csv to_datetime np w).1 in
  let result := (app read_csv to_datetime np w).2 in
  head page = Some (PageConfig "Superstore Sales Dashboard" "🛒" "wide" "expanded") ∧
  (result = Stopped ↔ Exists (λ e, is_alert e = true) page) ∧
  (Exists (λ e, is_alert e = true) page →
     (∃ e, last page = Some e ∧ is_alert e = true) ∧
     ¬ Exists (λ e, shows_data e = true) page) ∧
  (result = Done tt →
     Exists (λ e, shows_data e = true) page ∧
     ¬ Exists (λ e, is_alert e = true) page).
Proof.
  assert (Hquiet : ∀ df, ¬ Exists (λ e, is_alert e = true) (page_up_to_filters df) ∧
                         ¬ Exists (λ e, shows_data e = true) (page_up_to_filters df)).
  { intros df. split; intros H; apply Exists_exists in H as (e & He & Hp);
      unfold page_up_to_filters in He;
      repeat (apply elem_of_cons in He as [->|He]; [discriminate|]);
      by apply elem_of_nil in He. }
  assert (Hmain : ∀ v, ¬ Exists (λ e, is_alert e = true) (main_page np v).1 ∧
                       Exists (λ e, shows_data e = true) (main_page np v).1).
  { intros v. split.
    - intros H. apply Exists_exists in H as (e & He & Hp). simpl in He.
      repeat (apply elem_of_cons in He as [->|He]; [discriminate|]).
      by apply elem_of_nil in He.
    - simpl. do 2 apply Exists_cons_tl. by apply Exists_cons_hd. }
  destruct (app_shapes w) as [[msg ->] | [[df ->] | (df & v & ->)]];
    cbn [fst snd].
  - split; [done|]. split; [|split].
    + split; [|done]. intros _. apply Exists_cons_tl. by apply Exists_cons_hd.
    + intros _. split; [by eexists|].
      intros H. apply Exists_exists in H as (e & He & Hp).
      repeat (apply elem_of_cons in He as [->|He]; [discriminate|]).
      by apply elem_of_nil in He.
    + done.
  - destruct (Hquiet df) as [Hqa Hqd].
    split; [done|]. split; [|split].
    + split; [|done]. intros _. apply Exists_app. right. by apply Exists_cons_hd.
    + intros _. split.
      * exists (StWarning empty_warning). split; [|done]. by rewrite last_snoc.
      * rewrite Exists_app. intros [H|H]; [done|].
        apply Exists_cons in H as [H|H]; [discriminate|].
        by apply Exists_nil in H.
    + done.
  - destruct (Hquiet df) as [Hqa Hqd]. destruct (Hmain v) as [Hma Hmd].
    assert (Hnoalert : ¬ Exists (λ e, is_alert e = true)
                         (page_up_to_filters df ++ (main_page np v).1)).
    { rewrite Exists_app. tauto. }
    split; [done|]. split; [|split].
    + split; [done|]. intros H. by exfalso.
    + intros H. by exfalso.
    + intros _. split; [|done]. apply Exists_app. by right.
Qed.

End outcomes.

(** ** The charts *)

(** The pie has one slice per Region of the view, a missing Region apart:
    the names are exactly the Regions present, each once, in the order in
    which [groupby] sorts them; there are as many values and as many pulls
    as names, and every pull is 0.05. *)
Theorem pie_has_one_slice_per_region (np : Numerics) (df_selection : DataFrame) :
  ∃ values names pull,
    fig_sales_by_region np df_selection =
      Pie "<b>Sales by Region</b>" values names pull ∧
    length values = length names ∧ length pull = length names ∧
    length names =
      length (filter (λ k, k ≠ Missing) (region_options df_selection)) ∧
    NoDup names ∧ Sorted key_le names ∧
    (∀ k, k ∈ names ↔ k ≠ Missing ∧ ∃ r, r ∈ df_selection ∧ Region r = k) ∧
    Forall (λ p, p = (5 # 100)%Q) pull.
Proof.
  eexists _, _, _. split; [reflexivity|].
  unfold sales_by_region. rewrite groupby_sum_Sales_index.
  rewrite !length_fmap, length_replicate.
  split; [by rewrite <- (length_fmap fst), groupby_sum_Sales_index|].
  split; [by rewrite <- (length_fmap fst), groupby_sum_Sales_index|].
  split; [unfold group_keys, region_options; by rewrite sort_by_Permutation|].
  split; [apply NoDup_group_keys|].
  split; [apply Sorted_sort_by, _|].
  split.
  - intros k. apply elem_of_group_keys.
  - apply Forall_forall. intros p Hp.
    by apply elem_of_replicate in Hp as [? _].
Qed.

(** Each pie slice is computed from the rows its Region alone would select:
    the slice named [k] has a Region [k] that is among the picks and is not
    missing, and its value is pandas' group sum over the Sales of the
    dataset filtered by Region [k] and the selected Categories, in dataset
    order. *)
Theorem pie_slice_is_region_total (np : Numerics) (df : DataFrame)
    (region category : list Key) (k : Key) (x : Q) :
  (k, x) ∈ sales_by_region np (query df region category) →
  k ∈ region ∧ k ≠ Missing ∧
  x = group_sum np (Sales <$> query df [k] category).
Proof.
  unfold sales_by_region. rewrite elem_of_groupby_sum_Sales.
  intros (Hk & (r & Hr & <-) & ->).
  unfold query in *. apply list_elem_of_filter in Hr as [[Hreg Hcat] Hr].
  split; [done|]. split; [done|]. do 2 f_equal.
  rewrite list_filter_filter. apply list_filter_iff. intros r'.
  rewrite list_elem_of_singleton. split.
  - intros (-> & _ & ?). done.
  - intros [Heq ?]. rewrite Heq. done.
Qed.

(** In the two-row dataset, the East slice is made of the East's Sales. *)
Lemma pie_slice_is_region_total_witness :
  (Text "East", 100%Q) ∈ sales_by_region exact_arithmetic
     (query [row_chairs; row_paper] [Text "East"; Text "West"]
        [Text "Furniture"; Text "Office"]) ∧
  100%Q = group_sum exact_arithmetic
            (Sales <$> query [row_chairs; row_paper] [Text "East"]
                         [Text "Furniture"; Text "Office"]).
Proof.
  assert (H : (Text "East", 100%Q) ∈ sales_by_region exact_arithmetic
     (query [row_chairs; row_paper] [Text "East"; Text "West"]
        [Text "Furniture"; Text "Office"])).
  { vm_compute. left. }
  split; [exact H|].
  exact (proj2 (proj2 (pie_slice_is_region_total exact_arithmetic
                  [row_chairs; row_paper] [Text "East"; Text "West"]
                  [Text "Furniture"; Text "Office"] (Text "East") 100%Q H))).
Defined.

(** ** The metrics *)

(** Total Sales and Total Profit are what [Series.sum()] returned with its
    fractional part dropped, towards zero: [int] truncates, it does not
    round. *)
Theorem totals_are_truncated_sums (np : Numerics) (df_selection : DataFrame) :
  truncated_to_integer (Sales_sum np (Sales <$> df_selection))
    (total_sales np df_selection) ∧
  truncated_to_integer (Profit_sum np (Profit <$> df_selection))
    (total_profit np df_selection).
Proof. split; apply int_truncates. Qed.

(** A sum of 50.5 shows as 50, a sum of -19.5 as -19. *)
Example totals_are_truncated_example :
  total_sales exact_arithmetic [row_half; row_loss] = 50%Z ∧
  int_ (-39 # 2) = (-19)%Z.
Proof. split; reflexivity. Qed.
